(** * The binding filter of opencascade.js: [filterMethodOrProperty]

    Source: [src/filter/filterMethodOrProperties.py].  The function looks at
    two libclang cursors, the class and one of its members, and answers
    whether the member goes into the generated bindings.  It is a chain of
    [if ...: return False] statements closed by [return True]; one of the
    statements prints a line before it returns.

    Python [str] values are modelled as [string]; [==] on them is
    [String.eqb], [s.startswith(p)] is [String.prefix p s], [p in s] is a
    substring search and [x in [...]] is a scan of the list with [==].
    Standard output is a list of printed lines threaded through the call. *)

From Stdlib Require Import String Ascii List Bool PeanoNat NArith Permutation.
Import ListNotations.
Open Scope string_scope.
Open Scope bool_scope.

(** ** Python string operations used by the filter *)

Module Py.

(** [s.startswith(p)] *)
Definition startswith (s p : string) : bool := String.prefix p s.

(** [sub in s] on strings: [sub] occurs at some position of [s]. *)
Fixpoint contains (sub s : string) : bool :=
  if String.prefix sub s then true
  else match s with
       | EmptyString => false
       | String _ rest => contains sub rest
       end.

(** [x in l] on a list of strings. *)
Definition str_in (x : string) (l : list string) : bool :=
  existsb (String.eqb x) l.

End Py.

(** ** Standard output as threaded state *)

Definition stdout := list string.

Definition IO (A : Type) : Type := stdout -> A * stdout.

Definition ret {A : Type} (a : A) : IO A := fun out => (a, out).

Definition bind {A B : Type} (c : IO A) (k : A -> IO B) : IO B :=
  fun out => let (a, out') := c out in k a out'.

(** [print(line)]: one more line at the end of the output. *)
Definition print (line : string) : IO unit := fun out => (tt, (out ++ [line])%list).

Notation "c1 ;; c2" := (bind c1 (fun _ => c2))
  (at level 61, right associativity).

(** ** The part of [clang.cindex] the filter reads *)

Module clang.

Inductive AccessSpecifier : Type :=
| INVALID | PUBLIC | PROTECTED | PRIVATE | NONE.

Definition AccessSpecifier_eqb (a b : AccessSpecifier) : bool :=
  match a, b with
  | INVALID, INVALID | PUBLIC, PUBLIC | PROTECTED, PROTECTED
  | PRIVATE, PRIVATE | NONE, NONE => true
  | _, _ => false
  end.

(** A cursor kind is identified by its libclang number. *)
Record CursorKind : Type := { value : N }.

Definition CLASS_DECL : CursorKind := {| value := 4 |}.
Definition FIELD_DECL : CursorKind := {| value := 6 |}.
Definition CXX_METHOD : CursorKind := {| value := 21 |}.
Definition USING_DECLARATION : CursorKind := {| value := 35 |}.

Definition CursorKind_eqb (a b : CursorKind) : bool :=
  N.eqb (value a) (value b).

(** [clang.cindex.Type]: only [.spelling] is read. *)
Record Type_ : Type := { type_spelling : string }.

(** [clang.cindex.Cursor]: the attributes read from the class cursor and
    from the member cursor. *)
Record Cursor : Type := {
  spelling : string;
  displayname : string;
  type : Type_;
  result_type : Type_;
  access_specifier : AccessSpecifier;
  kind : CursorKind;
  is_static_method : bool
}.

End clang.

Import clang.

(** ** The filter, statement by statement *)

Definition using_declaration_message (theClass methodOrProperty : Cursor)
  : string :=
  "Using declarations are not supported! (" ++ spelling theClass ++ ", "
    ++ spelling methodOrProperty ++ ")".

Definition filterMethodOrProperty (theClass methodOrProperty : Cursor)
  : IO bool :=
  (* error: no matching function for call to object of type 'std::function<...>' *)
  if ((spelling theClass =? "MeshVS_DataSource") && (spelling methodOrProperty =? "GetGeom")) ||
     ((spelling theClass =? "MeshVS_DataSource") && (spelling methodOrProperty =? "GetGeomType")) ||
     ((spelling theClass =? "MeshVS_DeformedDataSource") && (spelling methodOrProperty =? "GetGeom")) ||
     ((spelling theClass =? "MeshVS_DeformedDataSource") && (spelling methodOrProperty =? "GetGeomType")) ||
     ((spelling theClass =? "Interface_STAT") && (spelling methodOrProperty =? "Description")) ||
     ((spelling theClass =? "Interface_STAT") && (spelling methodOrProperty =? "Phase"))
  then ret false else
  (* error: calling a private constructor of class 'X' *)
  if ((spelling theClass =? "VrmlData_Node") && (spelling methodOrProperty =? "Scene")) ||
     ((spelling theClass =? "Font_FTFont") && (spelling methodOrProperty =? "GlyphImage")) ||
     ((spelling theClass =? "LDOMString") && (spelling methodOrProperty =? "getOwnerDocument")) ||
     ((spelling theClass =? "LDOM_MemManager") && (spelling methodOrProperty =? "Self")) ||
     ((spelling theClass =? "Aspect_VKeySet") && (spelling methodOrProperty =? "Mutex")) ||
     ((spelling theClass =? "Image_VideoRecorder") && (spelling methodOrProperty =? "ChangeFrame")) ||
     ((spelling theClass =? "StdPrs_BRepFont") && (spelling methodOrProperty =? "Mutex")) ||
     ((spelling theClass =? "AdvApp2Var_Network") && (spelling methodOrProperty =? "ChangePatch")) ||
     ((spelling theClass =? "AdvApp2Var_Framework") && (spelling methodOrProperty =? "IsoU")) ||
     ((spelling theClass =? "LDOM_Node") && (spelling methodOrProperty =? "getOwnerDocument")) ||
     ((spelling theClass =? "AdvApp2Var_Network") && (spelling methodOrProperty =? "Patch")) ||
     ((spelling theClass =? "AdvApp2Var_Framework") && (spelling methodOrProperty =? "IsoV"))
  then ret false else
  (* error: non-const lvalue reference to type 'X' cannot bind to a temporary of type 'X' *)
  if (spelling theClass =? "Resource_Unicode") ||
     ((spelling theClass =? "NCollection_DataMap") && (spelling methodOrProperty =? "Find")) ||
     ((spelling theClass =? "OSD_Thread") && (spelling methodOrProperty =? "Wait")) ||
     ((spelling theClass =? "TCollection_ExtendedString") && (spelling methodOrProperty =? "ToUTF8CString")) ||
     ((spelling theClass =? "Message") && (spelling methodOrProperty =? "ToOSDMetric")) ||
     ((spelling theClass =? "OSD") && (spelling methodOrProperty =? "RealToCString")) ||
     ((spelling theClass =? "XmlObjMgt") && (spelling methodOrProperty =? "GetInteger")) ||
     ((spelling theClass =? "NCollection_IndexedDataMap") && (spelling methodOrProperty =? "FindFromKey")) ||
     ((spelling theClass =? "XmlObjMgt") && (spelling methodOrProperty =? "GetReal")) ||
     ((spelling theClass =? "BOPAlgo_Tools") && (spelling methodOrProperty =? "PerformCommonBlocks")) ||
     ((spelling theClass =? "Transfer_Finder") && (spelling methodOrProperty =? "GetStringAttribute")) ||
     ((spelling theClass =? "MoniTool_TypedValue") && (spelling methodOrProperty =? "Internals")) ||
     ((spelling theClass =? "MoniTool_AttrList") && (spelling methodOrProperty =? "GetStringAttribute")) ||
     ((spelling theClass =? "MoniTool_CaseData") && (spelling methodOrProperty =? "Text")) ||
     ((spelling theClass =? "StepData_StepReaderData") && (spelling methodOrProperty =? "ReadEnumParam")) ||
     (spelling theClass =? "XSControl_Vars") ||
     ((spelling theClass =? "MeshVS_DataSource") && (spelling methodOrProperty =? "GetGroup"))
  then ret false else
  (* error: static_assert failed ... "Implicitly binding raw pointers is illegal." *)
  if (spelling theClass =? "Graphic3d_GraduatedTrihedron") && (spelling methodOrProperty =? "CubicAxesCallback")
  then ret false else
  (* error: address of bit-field requested *)
  if type_spelling (type theClass) =? "MeshVS_TwoColors"
  then ret false else
  (* error: address of bit-field requested *)
  if (spelling theClass =? "Graphic3d_CStructure") &&
     Py.str_in (spelling methodOrProperty)
       [ "IsInfinite"; "stick"; "highlight"; "visible"; "HLRValidation";
         "IsForHighlight"; "IsMutable"; "Is2dText" ]
  then ret false else
  if AccessSpecifier_eqb (access_specifier methodOrProperty) PUBLIC &&
     CursorKind_eqb (kind methodOrProperty) USING_DECLARATION
  then
    print (using_declaration_message theClass methodOrProperty) ;;
    ret false
  else
  if Py.startswith (type_spelling (result_type methodOrProperty)) "Standard_OStream" ||
     (type_spelling (type methodOrProperty) =? "std::ifstream")
  then ret false else
  (* error: call to implicitly-deleted copy constructor of 'Aspect_VKeySet' *)
  if (spelling theClass =? "AIS_ViewController") &&
     ((spelling methodOrProperty =? "Keys") || (spelling methodOrProperty =? "ChangeKeys"))
  then ret false else
  (* error: private copy constructor used in this function *)
  if (spelling theClass =? "BRepClass3d_SolidExplorer") && (spelling methodOrProperty =? "GetTree")
  then ret false else
  (* binding code of gp_TrsfNLerp, a specialization of NCollection_Lerp *)
  if (spelling theClass =? "NCollection_Lerp") && (spelling methodOrProperty =? "Interpolate") &&
     is_static_method methodOrProperty
  then ret false else
  (* causes extreme memory growth which fails the build *)
  if Py.str_in (spelling theClass) [ "NCollection_Sequence"; "NCollection_List" ] &&
     Py.contains "::Iterator" (displayname methodOrProperty)
  then ret false else
  (* bad export type ...: undefined *)
  if (spelling theClass =? "Geom2dHatch_Hatcher") && (spelling methodOrProperty =? "IsDone")
  then ret false else
  if (spelling theClass =? "Geom2dAPI_Interpolate") && (spelling methodOrProperty =? "ClearTangents")
  then ret false else
  if (spelling theClass =? "Geom2dGcc_Lin2dTanObl") && (spelling methodOrProperty =? "IsParallel2")
  then ret false else
  if (spelling theClass =? "Geom2dInt_Geom2dCurveTool") && (spelling methodOrProperty =? "IsComposite")
  then ret false else
  if (spelling theClass =? "Geom2dInt_TheCurveLocatorOfTheProjPCurOfGInter") && (spelling methodOrProperty =? "Locate")
  then ret false else
  if (spelling theClass =? "GeomInt_IntSS") && (spelling methodOrProperty =? "SetTolFixTangents")
  then ret false else
  if (spelling theClass =? "GeomInt_IntSS") && (spelling methodOrProperty =? "TolFixTangents")
  then ret false else
  if (spelling theClass =? "GeomAPI_Interpolate") && (spelling methodOrProperty =? "ClearTangents")
  then ret false else
  if (spelling theClass =? "GeomFill_FunctionGuide") && (spelling methodOrProperty =? "Deriv2T")
  then ret false else
  if (spelling theClass =? "GeomFill_SweepSectionGenerator") && (spelling methodOrProperty =? "Init")
  then ret false else
  if (spelling theClass =? "GeomInt_ResConstraintOfMyGradientOfTheComputeLineBezierOfWLApprox") && (spelling methodOrProperty =? "Error")
  then ret false else
  if (spelling theClass =? "GeomInt_ResConstraintOfMyGradientbisOfTheComputeLineOfWLApprox") && (spelling methodOrProperty =? "Error")
  then ret false else
  if (spelling theClass =? "GeomInt_WLApprox") && (spelling methodOrProperty =? "Perform")
  then ret false else
  ret true.

(** ** The same chain read as a table of rules

    Every [if] statement of the source is one rule: a test on the two
    cursors and, for the using-declaration statement, the line it prints.
    The literal names of the tests are collected in lists. *)

Record Rule : Type := {
  matches : Cursor -> Cursor -> bool;
  diagnostic : option (Cursor -> Cursor -> string)
}.

(** [theClass.spelling == cl and methodOrProperty.spelling == mem] *)
Definition is_pair (theClass methodOrProperty : Cursor) (p : string * string)
  : bool :=
  (spelling theClass =? fst p) && (spelling methodOrProperty =? snd p).

Definition is_class (theClass : Cursor) (cl : string) : bool :=
  spelling theClass =? cl.

Definition pair_rule (ps : list (string * string)) : Rule :=
  {| matches := fun c m => existsb (is_pair c m) ps; diagnostic := None |}.

Definition silent_rule (test : Cursor -> Cursor -> bool) : Rule :=
  {| matches := test; diagnostic := None |}.

Definition std_function_pairs : list (string * string) :=
  [ ("MeshVS_DataSource", "GetGeom");
    ("MeshVS_DataSource", "GetGeomType");
    ("MeshVS_DeformedDataSource", "GetGeom");
    ("MeshVS_DeformedDataSource", "GetGeomType");
    ("Interface_STAT", "Description");
    ("Interface_STAT", "Phase") ].

Definition private_constructor_pairs : list (string * string) :=
  [ ("VrmlData_Node", "Scene");
    ("Font_FTFont", "GlyphImage");
    ("LDOMString", "getOwnerDocument");
    ("LDOM_MemManager", "Self");
    ("Aspect_VKeySet", "Mutex");
    ("Image_VideoRecorder", "ChangeFrame");
    ("StdPrs_BRepFont", "Mutex");
    ("AdvApp2Var_Network", "ChangePatch");
    ("AdvApp2Var_Framework", "IsoU");
    ("LDOM_Node", "getOwnerDocument");
    ("AdvApp2Var_Network", "Patch");
    ("AdvApp2Var_Framework", "IsoV") ].

Definition nonconst_reference_classes : list string :=
  [ "Resource_Unicode"; "XSControl_Vars" ].

Definition nonconst_reference_pairs : list (string * string) :=
  [ ("NCollection_DataMap", "Find");
    ("OSD_Thread", "Wait");
    ("TCollection_ExtendedString", "ToUTF8CString");
    ("Message", "ToOSDMetric");
    ("OSD", "RealToCString");
    ("XmlObjMgt", "GetInteger");
    ("NCollection_IndexedDataMap", "FindFromKey");
    ("XmlObjMgt", "GetReal");
    ("BOPAlgo_Tools", "PerformCommonBlocks");
    ("Transfer_Finder", "GetStringAttribute");
    ("MoniTool_TypedValue", "Internals");
    ("MoniTool_AttrList", "GetStringAttribute");
    ("MoniTool_CaseData", "Text");
    ("StepData_StepReaderData", "ReadEnumParam");
    ("MeshVS_DataSource", "GetGroup") ].

Definition raw_pointer_pairs : list (string * string) :=
  [ ("Graphic3d_GraduatedTrihedron", "CubicAxesCallback") ].

Definition bitfield_members : list string :=
  [ "IsInfinite"; "stick"; "highlight"; "visible"; "HLRValidation";
    "IsForHighlight"; "IsMutable"; "Is2dText" ].

Definition deleted_copy_constructor_pairs : list (string * string) :=
  [ ("AIS_ViewController", "Keys"); ("AIS_ViewController", "ChangeKeys") ].

Definition private_copy_constructor_pairs : list (string * string) :=
  [ ("BRepClass3d_SolidExplorer", "GetTree") ].

Definition iterator_classes : list string :=
  [ "NCollection_Sequence"; "NCollection_List" ].

Definition undefined_symbol_pairs : list (string * string) :=
  [ ("Geom2dHatch_Hatcher", "IsDone");
    ("Geom2dAPI_Interpolate", "ClearTangents");
    ("Geom2dGcc_Lin2dTanObl", "IsParallel2");
    ("Geom2dInt_Geom2dCurveTool", "IsComposite");
    ("Geom2dInt_TheCurveLocatorOfTheProjPCurOfGInter", "Locate");
    ("GeomInt_IntSS", "SetTolFixTangents");
    ("GeomInt_IntSS", "TolFixTangents");
    ("GeomAPI_Interpolate", "ClearTangents");
    ("GeomFill_FunctionGuide", "Deriv2T");
    ("GeomFill_SweepSectionGenerator", "Init");
    ("GeomInt_ResConstraintOfMyGradientOfTheComputeLineBezierOfWLApprox", "Error");
    ("GeomInt_ResConstraintOfMyGradientbisOfTheComputeLineOfWLApprox", "Error");
    ("GeomInt_WLApprox", "Perform") ].

(** The tests that do not look at a literal pair of names. *)

Definition nonconst_reference (theClass methodOrProperty : Cursor) : bool :=
  existsb (is_class theClass) nonconst_reference_classes ||
  existsb (is_pair theClass methodOrProperty) nonconst_reference_pairs.

Definition bitfield_class (theClass methodOrProperty : Cursor) : bool :=
  type_spelling (type theClass) =? "MeshVS_TwoColors".

Definition bitfield_member (theClass methodOrProperty : Cursor) : bool :=
  (spelling theClass =? "Graphic3d_CStructure") &&
  Py.str_in (spelling methodOrProperty) bitfield_members.

Definition public_using_declaration (theClass methodOrProperty : Cursor)
  : bool :=
  AccessSpecifier_eqb (access_specifier methodOrProperty) PUBLIC &&
  CursorKind_eqb (kind methodOrProperty) USING_DECLARATION.

Definition stream_type (theClass methodOrProperty : Cursor) : bool :=
  Py.startswith (type_spelling (result_type methodOrProperty))
                "Standard_OStream" ||
  (type_spelling (type methodOrProperty) =? "std::ifstream").

Definition static_interpolate (theClass methodOrProperty : Cursor) : bool :=
  (spelling theClass =? "NCollection_Lerp") &&
  (spelling methodOrProperty =? "Interpolate") &&
  is_static_method methodOrProperty.

Definition iterator_member (theClass methodOrProperty : Cursor) : bool :=
  Py.str_in (spelling theClass) iterator_classes &&
  Py.contains "::Iterator" (displayname methodOrProperty).

Definition using_declaration_rule : Rule :=
  {| matches := public_using_declaration;
     diagnostic := Some using_declaration_message |}.

(** The statements that come before the using-declaration test, and the
    ones that come after it. *)
Definition rules_before_using : list Rule :=
  [ pair_rule std_function_pairs;
    pair_rule private_constructor_pairs;
    silent_rule nonconst_reference;
    pair_rule raw_pointer_pairs;
    silent_rule bitfield_class;
    silent_rule bitfield_member ].

Definition rules_after_using : list Rule :=
  [ silent_rule stream_type;
    pair_rule deleted_copy_constructor_pairs;
    pair_rule private_copy_constructor_pairs;
    silent_rule static_interpolate;
    silent_rule iterator_member ]
  ++ map (fun p => pair_rule [p]) undefined_symbol_pairs.

Definition rules : list Rule :=
  rules_before_using ++ using_declaration_rule :: rules_after_using.

(** What a rule does when it is the one that decides. *)
Definition reject (r : Rule) (theClass methodOrProperty : Cursor) : IO bool :=
  match diagnostic r with
  | Some msg => print (msg theClass methodOrProperty) ;; ret false
  | None => ret false
  end.

(** First matching rule rejects; no matching rule admits. *)
Fixpoint run_rules (rs : list Rule) (theClass methodOrProperty : Cursor)
  : IO bool :=
  match rs with
  | [] => ret true
  | r :: rs' =>
      if matches r theClass methodOrProperty
      then reject r theClass methodOrProperty
      else run_rules rs' theClass methodOrProperty
  end.

Definition matches_any (rs : list Rule) (theClass methodOrProperty : Cursor)
  : bool :=
  existsb (fun r => matches r theClass methodOrProperty) rs.

(** ** Notions used to state the properties *)

(** The tests that look at neither name: the bit-field class type, the
    public using-declaration and the stream types. *)
Definition name_independent (theClass methodOrProperty : Cursor) : bool :=
  bitfield_class theClass methodOrProperty ||
  public_using_declaration theClass methodOrProperty ||
  stream_type theClass methodOrProperty.

(** All the literal (class, member) pairs of the pair statements. *)
Definition exact_pairs : list (string * string) :=
  (std_function_pairs ++ private_constructor_pairs ++
   nonconst_reference_pairs ++ raw_pointer_pairs ++
   deleted_copy_constructor_pairs ++ private_copy_constructor_pairs ++
   undefined_symbol_pairs)%list.

(** The class name occurs as the class of some pair of the list. *)
Definition class_listed (theClass : Cursor) (ps : list (string * string))
  : bool :=
  existsb (fun p => spelling theClass =? fst p) ps.

(** No pair of cursors is matched by two different rules of the list. *)
Definition mutually_exclusive (rs : list Rule) : Prop :=
  forall (c m : Cursor) (i j : nat) (ri rj : Rule),
    nth_error rs i = Some ri -> nth_error rs j = Some rj ->
    matches ri c m = true -> matches rj c m = true -> i = j.

(** The lines one call prints. *)
Definition printed (theClass methodOrProperty : Cursor) : list string :=
  if matches_any rules_before_using theClass methodOrProperty then []
  else if public_using_declaration theClass methodOrProperty
       then [using_declaration_message theClass methodOrProperty]
       else [].

(** Every class name that occurs in a test of the chain. *)
Definition named_classes : list string :=
  (map fst exact_pairs ++ nonconst_reference_classes ++
   ["Graphic3d_CStructure"; "NCollection_Lerp"] ++ iterator_classes)%list.

(** Every member name that occurs in a test of the chain. *)
Definition named_members : list string :=
  (map snd exact_pairs ++ bitfield_members ++ ["Interpolate"])%list.

(** ** Cursors used as concrete inputs *)

Module Examples.

Definition class_cursor (name : string) : Cursor :=
  {| spelling := name;
     displayname := name;
     type := {| type_spelling := name |};
     result_type := {| type_spelling := "" |};
     access_specifier := INVALID;
     kind := CLASS_DECL;
     is_static_method := false |}.

Definition method_cursor (name result : string) : Cursor :=
  {| spelling := name;
     displayname := name ++ "()";
     type := {| type_spelling := result ++ " ()" |};
     result_type := {| type_spelling := result |};
     access_specifier := PUBLIC;
     kind := CXX_METHOD;
     is_static_method := false |}.

Definition using_cursor (name : string) : Cursor :=
  {| spelling := name;
     displayname := name;
     type := {| type_spelling := "" |};
     result_type := {| type_spelling := "" |};
     access_specifier := PUBLIC;
     kind := USING_DECLARATION;
     is_static_method := false |}.

End Examples.

(** For each statement of the chain, in its order, a class and a member
    that reach it. *)
Definition deciding_examples : list (Cursor * Cursor) :=
  ([ (Examples.class_cursor "MeshVS_DataSource",
      Examples.method_cursor "GetGeom" "Standard_Boolean");
     (Examples.class_cursor "VrmlData_Node",
      Examples.method_cursor "Scene" "const VrmlData_Scene &");
     (Examples.class_cursor "Resource_Unicode",
      Examples.method_cursor "ConvertSJISToUnicode" "void");
     (Examples.class_cursor "Graphic3d_GraduatedTrihedron",
      Examples.method_cursor "CubicAxesCallback" "void");
     (Examples.class_cursor "MeshVS_TwoColors",
      Examples.method_cursor "r1" "unsigned int");
     (Examples.class_cursor "Graphic3d_CStructure",
      Examples.method_cursor "visible" "unsigned int");
     (Examples.class_cursor "gp_Pnt", Examples.using_cursor "Coord");
     (Examples.class_cursor "gp_Pnt",
      Examples.method_cursor "Dump" "Standard_OStream &");
     (Examples.class_cursor "AIS_ViewController",
      Examples.method_cursor "ChangeKeys" "Aspect_VKeySet &");
     (Examples.class_cursor "BRepClass3d_SolidExplorer",
      Examples.method_cursor "GetTree" "const BRepClass3d_BndBoxTree &");
     (Examples.class_cursor "NCollection_Lerp",
      {| spelling := "Interpolate";
         displayname := "Interpolate(const T &, const T &, double)";
         type := {| type_spelling := "T (const T &, const T &, double)" |};
         result_type := {| type_spelling := "T" |};
         access_specifier := PUBLIC;
         kind := CXX_METHOD;
         is_static_method := true |});
     (Examples.class_cursor "NCollection_Sequence",
      {| spelling := "Remove";
         displayname := "Remove(NCollection_Sequence::Iterator &)";
         type :=
           {| type_spelling := "void (NCollection_Sequence::Iterator &)" |};
         result_type := {| type_spelling := "void" |};
         access_specifier := PUBLIC;
         kind := CXX_METHOD;
         is_static_method := false |}) ]
   ++ map (fun p => (Examples.class_cursor (fst p),
                     Examples.method_cursor (snd p) "void"))
        undefined_symbol_pairs)%list.

(** The rules that test the names, in the order of the chain, and the
    three that do not. *)
Definition name_rules : list Rule :=
  ([ pair_rule std_function_pairs;
     pair_rule private_constructor_pairs;
     silent_rule nonconst_reference;
     pair_rule raw_pointer_pairs;
     silent_rule bitfield_member;
     pair_rule deleted_copy_constructor_pairs;
     pair_rule private_copy_constructor_pairs;
     silent_rule static_interpolate;
     silent_rule iterator_member ]
   ++ map (fun p => pair_rule [p]) undefined_symbol_pairs)%list.

Definition name_independent_rules : list Rule :=
  [ silent_rule bitfield_class;
    using_declaration_rule;
    silent_rule stream_type ].

(** A name pattern: a class name and, when the member matters, a member
    name.  The patterns of a rule are the names its test asks for. *)
Definition pattern : Type := string * option string.

Definition fits (theClass methodOrProperty : Cursor) (p : pattern) : bool :=
  (spelling theClass =? fst p) &&
  match snd p with
  | Some mem => spelling methodOrProperty =? mem
  | None => true
  end.

(** Two patterns that some pair of names can fit at once. *)
Definition clash (p q : pattern) : bool :=
  (fst p =? fst q) &&
  match snd p, snd q with
  | Some a, Some b => a =? b
  | _, _ => true
  end.

Definition pair_patterns (ps : list (string * string)) : list pattern :=
  map (fun p => (fst p, Some (snd p))) ps.

Definition class_patterns (cs : list string) : list pattern :=
  map (fun cl => (cl, None)) cs.

Definition member_patterns (cl : string) (mems : list string)
  : list pattern :=
  map (fun mem => (cl, Some mem)) mems.

Definition name_patterns : list (list pattern) :=
  ([ pair_patterns std_function_pairs;
     pair_patterns private_constructor_pairs;
     class_patterns nonconst_reference_classes ++
       pair_patterns nonconst_reference_pairs;
     pair_patterns raw_pointer_pairs;
     member_patterns "Graphic3d_CStructure" bitfield_members;
     pair_patterns deleted_copy_constructor_pairs;
     pair_patterns private_copy_constructor_pairs;
     [ ("NCollection_Lerp", Some "Interpolate") ];
     class_patterns iterator_classes ]
   ++ map (fun p => pair_patterns [p]) undefined_symbol_pairs)%list.

Definition apart (ps qs : list pattern) : bool :=
  forallb (fun p => forallb (fun q => negb (clash p q)) qs) ps.

Fixpoint pairwise_apart (l : list (list pattern)) : bool :=
  match l with
  | [] => true
  | ps :: rest => forallb (apart ps) rest && pairwise_apart rest
  end.

(** The patterns account for every match of the rule. *)
Definition covered (r : Rule) (ps : list pattern) : Prop :=
  forall c m : Cursor,
    matches r c m = true -> existsb (fits c m) ps = true.

(** * Proofs *)

(** ** The chain and the table agree *)

Ltac unfold_tests :=
  unfold nonconst_reference, bitfield_class, bitfield_member,
    public_using_declaration, stream_type, static_interpolate,
    iterator_member, Py.str_in, bitfield_members, iterator_classes,
    std_function_pairs, private_constructor_pairs,
    nonconst_reference_classes, nonconst_reference_pairs, raw_pointer_pairs,
    deleted_copy_constructor_pairs, private_copy_constructor_pairs;
  cbn [existsb]; unfold is_pair, is_class; cbn [fst snd].

Ltac tests_agree :=
  unfold_tests;
  repeat match goal with
         | |- context [spelling ?c =? "Resource_Unicode"] =>
             destruct (spelling c =? "Resource_Unicode")
         | |- context [spelling ?c =? "XSControl_Vars"] =>
             destruct (spelling c =? "XSControl_Vars")
         end;
  repeat (cbn [orb andb]; rewrite ?orb_true_r, ?orb_false_r);
  rewrite ?andb_orb_distrib_r, ?orb_assoc;
  reflexivity.

Ltac same_test :=
  match goal with
  | |- (if ?a then _ else _) _ = (if ?b then _ else _) _ =>
      replace b with a by tests_agree;
      destruct a; [reflexivity|]
  end.

Lemma filter_is_rules (c m : Cursor) (out : stdout) :
  filterMethodOrProperty c m out = run_rules rules c m out.
Proof.
  unfold filterMethodOrProperty, rules, rules_before_using, rules_after_using.
  cbn [run_rules app map matches diagnostic pair_rule silent_rule
       using_declaration_rule undefined_symbol_pairs reject].
  repeat same_test.
  reflexivity.
Qed.

(** ** Facts about a chain of rules *)

Section Chain.

Variables theClass methodOrProperty : Cursor.

Lemma matches_any_app (rs1 rs2 : list Rule) :
  matches_any (rs1 ++ rs2) theClass methodOrProperty =
  matches_any rs1 theClass methodOrProperty ||
  matches_any rs2 theClass methodOrProperty.
Proof. apply existsb_app. Qed.

Lemma matches_any_intro (rs : list Rule) (r : Rule) :
  In r rs -> matches r theClass methodOrProperty = true ->
  matches_any rs theClass methodOrProperty = true.
Proof.
  intros Hin Hr. apply existsb_exists. exists r. split; assumption.
Qed.

Lemma matches_any_Permutation (rs rs' : list Rule) :
  Permutation rs rs' ->
  matches_any rs theClass methodOrProperty =
  matches_any rs' theClass methodOrProperty.
Proof.
  unfold matches_any.
  induction 1 as [ | r l l' _ IH | r1 r2 l | l l' l'' _ IH1 _ IH2 ];
    cbn [existsb].
  - reflexivity.
  - now rewrite IH.
  - now rewrite !orb_assoc, (orb_comm (matches r2 _ _)).
  - now rewrite IH1.
Qed.

Lemma run_rules_fst (rs : list Rule) (out : stdout) :
  fst (run_rules rs theClass methodOrProperty out) =
  negb (matches_any rs theClass methodOrProperty).
Proof.
  induction rs as [ | r rs IH ]; cbn [run_rules matches_any existsb].
  - reflexivity.
  - destruct (matches r theClass methodOrProperty); cbn [orb negb].
    + unfold reject. now destruct (diagnostic r).
    + exact IH.
Qed.

Lemma run_rules_no_match (rs : list Rule) (out : stdout) :
  matches_any rs theClass methodOrProperty = false ->
  run_rules rs theClass methodOrProperty out = (true, out).
Proof.
  induction rs as [ | r rs IH ]; cbn [run_rules matches_any existsb];
    intros H.
  - reflexivity.
  - apply orb_false_iff in H. destruct H as [Hr Hrs].
    rewrite Hr. now apply IH.
Qed.

Lemma run_rules_skip (rs1 rs2 : list Rule) (out : stdout) :
  matches_any rs1 theClass methodOrProperty = false ->
  run_rules (rs1 ++ rs2) theClass methodOrProperty out =
  run_rules rs2 theClass methodOrProperty out.
Proof.
  induction rs1 as [ | r rs1 IH ];
    cbn [run_rules matches_any existsb app]; intros H.
  - reflexivity.
  - apply orb_false_iff in H. destruct H as [Hr Hrs].
    rewrite Hr. now apply IH.
Qed.

Lemma run_rules_stop (rs1 rs2 : list Rule) (out : stdout) :
  matches_any rs1 theClass methodOrProperty = true ->
  run_rules (rs1 ++ rs2) theClass methodOrProperty out =
  run_rules rs1 theClass methodOrProperty out.
Proof.
  induction rs1 as [ | r rs1 IH ];
    cbn [run_rules matches_any existsb app]; intros H.
  - discriminate.
  - destruct (matches r theClass methodOrProperty); [reflexivity|].
    now apply IH.
Qed.

Lemma run_rules_silent (rs : list Rule) (out : stdout) :
  Forall (fun r => diagnostic r = None) rs ->
  run_rules rs theClass methodOrProperty out =
  (negb (matches_any rs theClass methodOrProperty), out).
Proof.
  induction 1 as [ | r rs Hr _ IH ]; cbn [run_rules matches_any existsb].
  - reflexivity.
  - destruct (matches r theClass methodOrProperty); cbn [orb negb].
    + unfold reject. now rewrite Hr.
    + exact IH.
Qed.

End Chain.

Lemma rules_before_using_silent :
  Forall (fun r => diagnostic r = None) rules_before_using.
Proof. repeat constructor. Qed.

Lemma rules_after_using_silent :
  Forall (fun r => diagnostic r = None) rules_after_using.
Proof. repeat constructor. Qed.

(** The decision and the output of one call, in closed form. *)
Lemma filter_result (c m : Cursor) (out : stdout) :
  filterMethodOrProperty c m out =
  if matches_any rules_before_using c m then (false, out)
  else if public_using_declaration c m
       then (false, (out ++ [using_declaration_message c m])%list)
       else (negb (matches_any rules_after_using c m), out).
Proof.
  rewrite filter_is_rules. unfold rules.
  destruct (matches_any rules_before_using c m) eqn:Hb.
  - rewrite run_rules_stop by exact Hb.
    rewrite run_rules_silent by exact rules_before_using_silent.
    now rewrite Hb.
  - rewrite run_rules_skip by exact Hb.
    cbn [run_rules matches using_declaration_rule].
    destruct (public_using_declaration c m).
    + reflexivity.
    + apply run_rules_silent. exact rules_after_using_silent.
Qed.

Lemma filter_decision (c m : Cursor) (out : stdout) :
  fst (filterMethodOrProperty c m out) = negb (matches_any rules c m).
Proof. rewrite filter_is_rules. apply run_rules_fst. Qed.

Lemma before_in_rules (r : Rule) : In r rules_before_using -> In r rules.
Proof. intros H. unfold rules. apply in_or_app. now left. Qed.

Lemma after_in_rules (r : Rule) : In r rules_after_using -> In r rules.
Proof. intros H. unfold rules. apply in_or_app. right. now right. Qed.

Lemma is_pair_In (c m : Cursor) (ps : list (string * string)) :
  In (spelling c, spelling m) ps -> existsb (is_pair c m) ps = true.
Proof.
  intros H. apply existsb_exists. exists (spelling c, spelling m).
  split; [exact H|]. unfold is_pair. cbn [fst snd].
  now rewrite !String.eqb_refl.
Qed.

Lemma str_in_In (x : string) (l : list string) :
  Py.str_in x l = true <-> In x l.
Proof.
  unfold Py.str_in. rewrite existsb_exists. split.
  - intros [y [Hin Hy]]. apply String.eqb_eq in Hy. now subst.
  - intros H. exists x. split; [exact H | apply String.eqb_refl].
Qed.

Lemma name_independent_false (c m : Cursor) :
  name_independent c m = false ->
  bitfield_class c m = false /\
  public_using_declaration c m = false /\
  stream_type c m = false.
Proof.
  unfold name_independent. intros H.
  apply orb_false_iff in H. destruct H as [H12 H3].
  apply orb_false_iff in H12. tauto.
Qed.

(** * The properties of the filter *)

Ltac split_tests H :=
  apply name_independent_false in H;
  let H1 := fresh "Hbit" in
  let H2 := fresh "Husing" in
  let H3 := fresh "Hstream" in
  destruct H as [H1 [H2 H3]].

(** C1. Default admit: a call on a pair of cursors that matches none of the
    rules returns [True] and prints nothing; in particular class "Foo" with
    member "Bar" is admitted, its names being in no rule, when none of the
    tests that ignore the names matches. *)
Theorem default_admission (c m : Cursor) (out : stdout) :
  (matches_any rules c m = false ->
   filterMethodOrProperty c m out = (true, out)) /\
  (spelling c = "Foo" -> spelling m = "Bar" ->
   name_independent c m = false ->
   filterMethodOrProperty c m out = (true, out)).
Proof.
  split.
  - intros H. rewrite filter_is_rules. now apply run_rules_no_match.
  - intros Hc Hm H. split_tests H.
    rewrite filter_result.
    unfold matches_any, rules_before_using, rules_after_using.
    cbn [existsb matches pair_rule silent_rule app map undefined_symbol_pairs].
    rewrite Hbit, Husing, Hstream.
    unfold_tests. rewrite Hc. cbn. reflexivity.
Qed.

Lemma default_admission_witness :
  let c := Examples.class_cursor "Foo" in
  let m := Examples.method_cursor "Bar" "void" in
  matches_any rules c m = false /\
  name_independent c m = false /\
  filterMethodOrProperty c m [] = (true, []).
Proof.
  intros c m.
  destruct (default_admission c m []) as [Hnone Hfoo].
  split; [vm_compute; reflexivity|].
  split; [vm_compute; reflexivity|].
  apply Hfoo; vm_compute; reflexivity.
Defined.

Lemma decision_false_intro (c m : Cursor) (out : stdout) (r : Rule) :
  In r rules -> matches r c m = true ->
  fst (filterMethodOrProperty c m out) = false.
Proof.
  intros Hin Hr. rewrite filter_decision.
  now rewrite (matches_any_intro c m rules r Hin Hr).
Qed.

Ltac in_list := cbn [In]; repeat (first [left; reflexivity | right]).

(** C2. Every literal (class, member) pair of the pair statements is
    excluded: when the class name and the member name of the cursors are
    such a pair the call returns [False]; so it does for
    NCollection_Lerp::Interpolate when the member is a static method. *)
Theorem exact_pairs_excluded (c m : Cursor) (out : stdout) :
  In (spelling c, spelling m) exact_pairs \/
  (spelling c = "NCollection_Lerp" /\ spelling m = "Interpolate" /\
   is_static_method m = true) ->
  fst (filterMethodOrProperty c m out) = false.
Proof.
  unfold exact_pairs. intros [H | [Hc [Hm Hs]]].
  - repeat (apply in_app_or in H; destruct H as [H | H]).
    + apply decision_false_intro with (r := pair_rule std_function_pairs).
      * apply before_in_rules. in_list.
      * now apply is_pair_In.
    + apply decision_false_intro
        with (r := pair_rule private_constructor_pairs).
      * apply before_in_rules. in_list.
      * now apply is_pair_In.
    + apply decision_false_intro with (r := silent_rule nonconst_reference).
      * apply before_in_rules. in_list.
      * cbn [matches silent_rule]. unfold nonconst_reference.
        rewrite (is_pair_In c m _ H). apply orb_true_r.
    + apply decision_false_intro with (r := pair_rule raw_pointer_pairs).
      * apply before_in_rules. in_list.
      * now apply is_pair_In.
    + apply decision_false_intro
        with (r := pair_rule deleted_copy_constructor_pairs).
      * apply after_in_rules. apply in_or_app. left. in_list.
      * now apply is_pair_In.
    + apply decision_false_intro
        with (r := pair_rule private_copy_constructor_pairs).
      * apply after_in_rules. apply in_or_app. left. in_list.
      * now apply is_pair_In.
    + apply decision_false_intro
        with (r := pair_rule [(spelling c, spelling m)]).
      * apply after_in_rules. apply in_or_app. right.
        exact (in_map (fun p => pair_rule [p]) _ _ H).
      * apply is_pair_In. now left.
  - apply decision_false_intro with (r := silent_rule static_interpolate).
    + apply after_in_rules. apply in_or_app. left. in_list.
    + cbn [matches silent_rule]. unfold static_interpolate.
      rewrite Hc, Hm, Hs. reflexivity.
Qed.

Lemma exact_pairs_excluded_witness :
  In ("MeshVS_DataSource", "GetGeom") exact_pairs /\
  In ("Geom2dHatch_Hatcher", "IsDone") exact_pairs /\
  fst (filterMethodOrProperty
         (Examples.class_cursor "MeshVS_DataSource")
         (Examples.method_cursor "GetGeom" "Standard_Boolean") []) = false /\
  fst (filterMethodOrProperty
         (Examples.class_cursor "Geom2dHatch_Hatcher")
         (Examples.method_cursor "IsDone" "Standard_Boolean") []) = false.
Proof.
  assert (H1 : In ("MeshVS_DataSource", "GetGeom") exact_pairs)
    by (vm_compute; tauto).
  assert (H2 : In ("Geom2dHatch_Hatcher", "IsDone") exact_pairs)
    by (vm_compute; tauto).
  split; [exact H1|]. split; [exact H2|]. split.
  - apply (exact_pairs_excluded
             (Examples.class_cursor "MeshVS_DataSource")
             (Examples.method_cursor "GetGeom" "Standard_Boolean") []).
    left. exact H1.
  - apply (exact_pairs_excluded
             (Examples.class_cursor "Geom2dHatch_Hatcher")
             (Examples.method_cursor "IsDone" "Standard_Boolean") []).
    left. exact H2.
Defined.

(** C10. Whole-class exclusions among the non-const-reference tests: every
    member of class Resource_Unicode and every member of class XSControl_Vars
    is excluded, whatever the member is, and nothing is printed. *)
Theorem whole_class_excluded (c m : Cursor) (out : stdout) :
  spelling c = "Resource_Unicode" \/ spelling c = "XSControl_Vars" ->
  filterMethodOrProperty c m out = (false, out).
Proof.
  intros H. rewrite filter_result.
  rewrite (matches_any_intro c m rules_before_using
             (silent_rule nonconst_reference)).
  - reflexivity.
  - in_list.
  - cbn [matches silent_rule]. unfold nonconst_reference.
    unfold nonconst_reference_classes, is_class. cbn [existsb].
    destruct H as [H | H]; rewrite H; reflexivity.
Qed.

Lemma whole_class_excluded_witness :
  filterMethodOrProperty (Examples.class_cursor "Resource_Unicode")
    (Examples.method_cursor "ConvertUnicodeToSJIS" "Standard_Boolean") [] =
  (false, []) /\
  filterMethodOrProperty (Examples.class_cursor "XSControl_Vars")
    (Examples.using_cursor "Set") [] = (false, []).
Proof.
  split.
  - apply (whole_class_excluded (Examples.class_cursor "Resource_Unicode")).
    left. reflexivity.
  - apply (whole_class_excluded (Examples.class_cursor "XSControl_Vars")).
    right. reflexivity.
Defined.

(** C7. A member whose result type name begins with "Standard_OStream", or
    whose declared type is "std::ifstream", is excluded for every class name
    and every member name. *)
Theorem stream_members_excluded (c m : Cursor) (out : stdout) :
  Py.startswith (type_spelling (result_type m)) "Standard_OStream" = true \/
  type_spelling (type m) = "std::ifstream" ->
  fst (filterMethodOrProperty c m out) = false.
Proof.
  intros H.
  apply decision_false_intro with (r := silent_rule stream_type).
  - apply after_in_rules. apply in_or_app. left. in_list.
  - cbn [matches silent_rule]. unfold stream_type.
    destruct H as [H | H]; rewrite H.
    + reflexivity.
    + rewrite String.eqb_refl. apply orb_true_r.
Qed.

Lemma stream_members_excluded_witness :
  fst (filterMethodOrProperty (Examples.class_cursor "Foo")
         (Examples.method_cursor "Bar" "Standard_OStream &") []) = false.
Proof.
  apply (stream_members_excluded (Examples.class_cursor "Foo")
           (Examples.method_cursor "Bar" "Standard_OStream &") []).
  left. vm_compute. reflexivity.
Defined.

(** ** Classes that occur in no pair *)

Lemma class_not_listed (c m : Cursor) (ps : list (string * string)) :
  class_listed c ps = false -> existsb (is_pair c m) ps = false.
Proof.
  unfold class_listed.
  induction ps as [ | p ps IH ]; cbn [existsb]; intros H.
  - reflexivity.
  - apply orb_false_iff in H. destruct H as [Hp Hps].
    unfold is_pair at 1. rewrite Hp. now apply IH.
Qed.

Lemma single_pair_rules (c m : Cursor) (ps : list (string * string)) :
  matches_any (map (fun p => pair_rule [p]) ps) c m =
  existsb (is_pair c m) ps.
Proof.
  unfold matches_any.
  induction ps as [ | p ps IH ]; cbn [map existsb matches pair_rule].
  - reflexivity.
  - now rewrite IH, orb_false_r.
Qed.

(** For a class named in no pair and in no whole-class list, only the tests
    that are not pairs remain. *)
Lemma unlisted_class_decision (c m : Cursor) :
  class_listed c exact_pairs = false ->
  existsb (is_class c) nonconst_reference_classes = false ->
  matches_any rules c m =
  name_independent c m || bitfield_member c m ||
  static_interpolate c m || iterator_member c m.
Proof.
  unfold exact_pairs, class_listed. intros Hp Hw.
  repeat (rewrite existsb_app in Hp; apply orb_false_iff in Hp;
          let H := fresh "Hp" in destruct Hp as [H Hp]).
  unfold rules, rules_after_using.
  rewrite matches_any_app.
  change (using_declaration_rule :: ?l) with ([using_declaration_rule] ++ l)%list.
  rewrite !matches_any_app, single_pair_rules.
  unfold matches_any, rules_before_using.
  cbn [existsb matches pair_rule silent_rule using_declaration_rule].
  unfold nonconst_reference. rewrite Hw.
  rewrite !(class_not_listed c m) by assumption.
  unfold name_independent.
  destruct (bitfield_class c m), (bitfield_member c m),
    (public_using_declaration c m), (stream_type c m),
    (static_interpolate c m), (iterator_member c m); reflexivity.
Qed.

(** ** Overlap and order of the rules *)

(** C3, as stated, fails: a member of XSControl_Vars that returns an output
    stream is matched by the non-const-reference statement (the third) and
    by the stream statement (the eighth). *)
Lemma rules_not_mutually_exclusive : ~ mutually_exclusive rules.
Proof.
  intros H.
  specialize (H (Examples.class_cursor "XSControl_Vars")
                (Examples.method_cursor "Dump" "Standard_OStream &")
                2 7 (silent_rule nonconst_reference) (silent_rule stream_type)
                eq_refl eq_refl eq_refl eq_refl).
  discriminate H.
Qed.

(** C3, amended. The rules overlap, but the boolean decision is the same
    for every reordering of the statements: running any permutation of the
    rules returns the boolean the function returns. *)
Theorem decision_order_independent
    (rs : list Rule) (c m : Cursor) (out out' : stdout) :
  Permutation rules rs ->
  fst (run_rules rs c m out') = fst (filterMethodOrProperty c m out).
Proof.
  intros HP. rewrite filter_decision, run_rules_fst.
  f_equal. symmetry. now apply matches_any_Permutation.
Qed.

Lemma decision_order_independent_witness :
  Permutation rules (rev rules) /\
  fst (run_rules (rev rules)
         (Examples.class_cursor "XSControl_Vars")
         (Examples.using_cursor "Set") []) =
  fst (filterMethodOrProperty
         (Examples.class_cursor "XSControl_Vars")
         (Examples.using_cursor "Set") []).
Proof.
  split.
  - apply Permutation_rev.
  - apply (decision_order_independent (rev rules)).
    apply Permutation_rev.
Defined.

(** ** The iterator members of the two container classes *)

(** C4, as stated, fails in its second half: a member of NCollection_List
    without the marker in its display name is still excluded when it returns
    an output stream. *)
Lemma unmarked_member_not_always_admitted :
  ~ (forall (c m : Cursor) (out : stdout),
        spelling c = "NCollection_Sequence" \/
        spelling c = "NCollection_List" ->
        Py.contains "::Iterator" (displayname m) = false ->
        fst (filterMethodOrProperty c m out) = true).
Proof.
  intros H.
  specialize (H (Examples.class_cursor "NCollection_List")
                (Examples.method_cursor "Dump" "Standard_OStream &") []
                (or_intror eq_refl) eq_refl).
  vm_compute in H. discriminate H.
Qed.

Lemma container_class_decision (c m : Cursor) :
  spelling c = "NCollection_Sequence" \/ spelling c = "NCollection_List" ->
  matches_any rules c m =
  name_independent c m || Py.contains "::Iterator" (displayname m).
Proof.
  intros Hc. rewrite unlisted_class_decision.
  - unfold bitfield_member, static_interpolate, iterator_member.
    destruct Hc as [Hc | Hc]; rewrite Hc; cbn [String.eqb Ascii.eqb Bool.eqb andb];
      now rewrite !orb_false_r.
  - unfold class_listed. destruct Hc as [Hc | Hc]; rewrite Hc; reflexivity.
  - unfold is_class. destruct Hc as [Hc | Hc]; rewrite Hc; reflexivity.
Qed.

(** C4, amended. For a member of NCollection_Sequence or NCollection_List:
    with "::Iterator" in its display name it is excluded; without it, it is
    admitted exactly when none of the tests that ignore the names (bit-field
    class type, public using-declaration, stream type) matches. *)
Theorem iterator_members (c m : Cursor) (out : stdout) :
  spelling c = "NCollection_Sequence" \/ spelling c = "NCollection_List" ->
  (Py.contains "::Iterator" (displayname m) = true ->
   fst (filterMethodOrProperty c m out) = false) /\
  (Py.contains "::Iterator" (displayname m) = false ->
   (fst (filterMethodOrProperty c m out) = true <->
    name_independent c m = false)).
Proof.
  intros Hc. rewrite filter_decision, (container_class_decision c m Hc).
  split; intros Hi; rewrite Hi.
  - now rewrite orb_true_r.
  - rewrite orb_false_r. destruct (name_independent c m); cbn; split; congruence.
Qed.

Lemma iterator_members_witness :
  let c := Examples.class_cursor "NCollection_Sequence" in
  let marked :=
    {| spelling := "Remove";
       displayname := "Remove(NCollection_Sequence::Iterator &)";
       type := {| type_spelling := "void (NCollection_Sequence::Iterator &)" |};
       result_type := {| type_spelling := "void" |};
       access_specifier := PUBLIC;
       kind := CXX_METHOD;
       is_static_method := false |} in
  let plain := Examples.method_cursor "Length" "Standard_Integer" in
  fst (filterMethodOrProperty c marked []) = false /\
  fst (filterMethodOrProperty c plain []) = true.
Proof.
  intros c marked plain.
  destruct (iterator_members c marked [] (or_introl eq_refl)) as [Hmarked _].
  destruct (iterator_members c plain [] (or_introl eq_refl)) as [_ Hplain].
  split.
  - apply Hmarked. vm_compute. reflexivity.
  - apply Hplain; vm_compute; reflexivity.
Defined.

(** ** The bit-field statements *)

(** C5, as stated, fails in its second half: a member of Graphic3d_CStructure
    that is none of the eight names is still excluded when it is a public
    using-declaration. *)
Lemma other_member_of_CStructure_excluded :
  ~ (forall (c m : Cursor) (out : stdout),
        spelling c = "Graphic3d_CStructure" ->
        fst (filterMethodOrProperty c m out) = false ->
        In (spelling m) bitfield_members).
Proof.
  intros H.
  specialize (H (Examples.class_cursor "Graphic3d_CStructure")
                (Examples.using_cursor "SetTransformation") []
                eq_refl eq_refl).
  cbn [In bitfield_members Examples.using_cursor spelling] in H.
  repeat (destruct H as [H | H]; [discriminate H|]).
  exact H.
Qed.

Lemma CStructure_decision (c m : Cursor) :
  spelling c = "Graphic3d_CStructure" ->
  matches_any rules c m =
  name_independent c m || Py.str_in (spelling m) bitfield_members.
Proof.
  intros Hc. rewrite unlisted_class_decision.
  - unfold bitfield_member, static_interpolate, iterator_member.
    rewrite Hc. cbn [String.eqb Ascii.eqb Bool.eqb andb].
    replace (Py.str_in "Graphic3d_CStructure" iterator_classes) with false
      by reflexivity.
    cbn [andb]. now rewrite !orb_false_r.
  - unfold class_listed. rewrite Hc. reflexivity.
  - unfold is_class. rewrite Hc. reflexivity.
Qed.

(** C5, amended. When the type of the class cursor is MeshVS_TwoColors every
    member is excluded, whatever its name, and nothing is printed.  For class
    Graphic3d_CStructure a member is excluded exactly when its name is one of
    the eight bit-field names or one of the tests that ignore the names
    (bit-field class type, public using-declaration, stream type) matches. *)
Theorem bitfield_exclusions (c m : Cursor) (out : stdout) :
  (type_spelling (type c) = "MeshVS_TwoColors" ->
   filterMethodOrProperty c m out = (false, out)) /\
  (spelling c = "Graphic3d_CStructure" ->
   (fst (filterMethodOrProperty c m out) = false <->
    In (spelling m) bitfield_members \/ name_independent c m = true)).
Proof.
  split.
  - intros Ht. rewrite filter_result.
    rewrite (matches_any_intro c m rules_before_using
               (silent_rule bitfield_class)).
    + reflexivity.
    + in_list.
    + cbn [matches silent_rule]. unfold bitfield_class.
      rewrite Ht. reflexivity.
  - intros Hc. rewrite filter_decision, (CStructure_decision c m Hc).
    rewrite negb_false_iff, orb_true_iff, str_in_In. tauto.
Qed.

Lemma bitfield_exclusions_witness :
  filterMethodOrProperty
    {| spelling := "MeshVS_TwoColors";
       displayname := "MeshVS_TwoColors";
       type := {| type_spelling := "MeshVS_TwoColors" |};
       result_type := {| type_spelling := "" |};
       access_specifier := INVALID;
       kind := CLASS_DECL;
       is_static_method := false |}
    {| spelling := "r1";
       displayname := "r1";
       type := {| type_spelling := "unsigned int" |};
       result_type := {| type_spelling := "" |};
       access_specifier := PUBLIC;
       kind := FIELD_DECL;
       is_static_method := false |} [] = (false, []) /\
  fst (filterMethodOrProperty
         (Examples.class_cursor "Graphic3d_CStructure")
         {| spelling := "visible";
            displayname := "visible";
            type := {| type_spelling := "unsigned int" |};
            result_type := {| type_spelling := "" |};
            access_specifier := PUBLIC;
            kind := FIELD_DECL;
            is_static_method := false |} []) = false.
Proof.
  split.
  - match goal with
    | |- filterMethodOrProperty ?c ?m ?o = _ =>
        destruct (bitfield_exclusions c m o) as [Hclass _]
    end.
    apply Hclass. reflexivity.
  - match goal with
    | |- fst (filterMethodOrProperty ?c ?m ?o) = _ =>
        destruct (bitfield_exclusions c m o) as [_ Hmember]
    end.
    apply Hmember; [reflexivity|]. left. vm_compute. tauto.
Defined.

(** ** The using-declaration statement and its printed line *)

Lemma public_using_declaration_true (c m : Cursor) :
  public_using_declaration c m = true <->
  access_specifier m = PUBLIC /\ kind m = USING_DECLARATION.
Proof.
  unfold public_using_declaration, CursorKind_eqb.
  rewrite andb_true_iff, N.eqb_eq. split.
  - intros [Ha Hk]. split.
    + now destruct (access_specifier m).
    + destruct (kind m) as [v]. cbn in Hk. now subst.
  - intros [Ha Hk]. rewrite Ha, Hk. split; reflexivity.
Qed.

(** C6, as stated, fails: a public using-declaration in class
    Resource_Unicode is excluded by the non-const-reference statement, which
    comes first, and no line is printed. *)
Lemma using_declaration_without_line :
  ~ (forall (c m : Cursor) (out : stdout),
        access_specifier m = PUBLIC -> kind m = USING_DECLARATION ->
        filterMethodOrProperty c m out =
        (false, (out ++ [using_declaration_message c m])%list)).
Proof.
  intros H.
  specialize (H (Examples.class_cursor "Resource_Unicode")
                (Examples.using_cursor "Set") [] eq_refl eq_refl).
  vm_compute in H. discriminate H.
Qed.

(** C6, amended. A public using-declaration is always excluded.  The line
    naming the class and the member is printed, once, when none of the six
    statements before the using-declaration test matches; when one of them
    matches nothing is printed.  A call on a member that is not a public
    using-declaration prints nothing, whatever it decides. *)
Theorem using_declaration_diagnostic (c m : Cursor) (out : stdout) :
  (access_specifier m = PUBLIC -> kind m = USING_DECLARATION ->
   filterMethodOrProperty c m out =
   (false,
    if matches_any rules_before_using c m then out
    else (out ++ [using_declaration_message c m])%list)) /\
  (~ (access_specifier m = PUBLIC /\ kind m = USING_DECLARATION) ->
   snd (filterMethodOrProperty c m out) = out).
Proof.
  rewrite filter_result. split.
  - intros Ha Hk.
    rewrite (proj2 (public_using_declaration_true c m) (conj Ha Hk)).
    now destruct (matches_any rules_before_using c m).
  - intros Hn. rewrite <- public_using_declaration_true in Hn.
    apply not_true_is_false in Hn. rewrite Hn.
    now destruct (matches_any rules_before_using c m).
Qed.

Lemma using_declaration_diagnostic_witness :
  filterMethodOrProperty (Examples.class_cursor "gp_Pnt")
    (Examples.using_cursor "Coord") [] =
  (false, ["Using declarations are not supported! (gp_Pnt, Coord)"]) /\
  snd (filterMethodOrProperty (Examples.class_cursor "Geom2dHatch_Hatcher")
         (Examples.method_cursor "IsDone" "Standard_Boolean") []) = [].
Proof.
  split.
  - destruct (using_declaration_diagnostic (Examples.class_cursor "gp_Pnt")
                (Examples.using_cursor "Coord") []) as [Husing _].
    apply Husing; reflexivity.
  - destruct (using_declaration_diagnostic
                (Examples.class_cursor "Geom2dHatch_Hatcher")
                (Examples.method_cursor "IsDone" "Standard_Boolean") [])
      as [_ Hother].
    apply Hother. intros [_ Hk]. discriminate Hk.
Defined.

(** ** Calls do not depend on earlier calls *)

Lemma filter_appends (c m : Cursor) (out : stdout) :
  filterMethodOrProperty c m out =
  (negb (matches_any rules c m), (out ++ printed c m)%list).
Proof.
  rewrite <- filter_decision with (out := out).
  rewrite filter_result. unfold printed.
  destruct (matches_any rules_before_using c m).
  - now rewrite app_nil_r.
  - destruct (public_using_declaration c m).
    + reflexivity.
    + now rewrite app_nil_r.
Qed.

(** C9. Totality: on every pair of cursors and every state of the output
    the call returns a boolean, and the output afterwards is the output
    before followed by nothing or by the one using-declaration line, the
    latter only together with the answer [False] for a public
    using-declaration. *)
Theorem filter_total (c m : Cursor) (out : stdout) :
  exists (b : bool) (d : list string),
    filterMethodOrProperty c m out = (b, (out ++ d)%list) /\
    (d = [] \/
     (d = [using_declaration_message c m] /\ b = false /\
      access_specifier m = PUBLIC /\ kind m = USING_DECLARATION)).
Proof.
  exists (fst (filterMethodOrProperty c m out)), (printed c m).
  split.
  - now rewrite filter_appends.
  - rewrite filter_result. unfold printed.
    destruct (matches_any rules_before_using c m); [now left|].
    destruct (public_using_declaration c m) eqn:Hu; [|now left].
    right. apply public_using_declaration_true in Hu. tauto.
Qed.

(** C8, as stated, fails in its second half: for a public
    using-declaration in class Resource_Unicode neither of two successive
    calls prints the line, the non-const-reference statement deciding both
    times. *)
Lemma using_declaration_not_always_repeated :
  ~ (forall (c m : Cursor) (out : stdout),
        access_specifier m = PUBLIC -> kind m = USING_DECLARATION ->
        let first := filterMethodOrProperty c m out in
        let second := filterMethodOrProperty c m (snd first) in
        snd first = (out ++ [using_declaration_message c m])%list /\
        snd second = (snd first ++ [using_declaration_message c m])%list).
Proof.
  intros H.
  specialize (H (Examples.class_cursor "Resource_Unicode")
                (Examples.using_cursor "Set") [] eq_refl eq_refl).
  destruct H as [H _]. vm_compute in H. discriminate H.
Qed.

(** C8, amended. Two successive calls on the same cursors return the same
    boolean, and the second call prints again exactly what the first
    printed, nothing being suppressed.  For a public using-declaration each
    of the two calls prints the line when none of the six statements before
    the using-declaration test matches, and neither call prints it when one
    of them matches. *)
Theorem successive_calls (c m : Cursor) (out : stdout) :
  let first := filterMethodOrProperty c m out in
  let second := filterMethodOrProperty c m (snd first) in
  fst second = fst first /\
  exists d : list string,
    snd first = (out ++ d)%list /\
    snd second = (out ++ d ++ d)%list /\
    (access_specifier m = PUBLIC -> kind m = USING_DECLARATION ->
     d = if matches_any rules_before_using c m then []
         else [using_declaration_message c m]).
Proof.
  cbv zeta. rewrite !filter_appends. cbn [fst snd].
  split; [reflexivity|].
  exists (printed c m). split; [reflexivity|]. split.
  - now rewrite app_assoc.
  - intros Ha Hk. unfold printed.
    now rewrite (proj2 (public_using_declaration_true c m) (conj Ha Hk)).
Qed.

Lemma successive_calls_witness :
  let c := Examples.class_cursor "gp_Pnt" in
  let m := Examples.using_cursor "Coord" in
  let first := filterMethodOrProperty c m [] in
  let second := filterMethodOrProperty c m (snd first) in
  fst second = fst first /\
  snd second =
  [ "Using declarations are not supported! (gp_Pnt, Coord)";
    "Using declarations are not supported! (gp_Pnt, Coord)" ].
Proof.
  intros c m.
  destruct (successive_calls c m []) as [Hb [d [_ [H2 Hd]]]].
  split; [exact Hb|].
  cbv zeta. rewrite H2.
  rewrite (Hd eq_refl eq_refl). reflexivity.
Defined.

(** * Further properties of the filter *)

(** ** The tests of the chain in closed form *)

Lemma rules_expanded (c m : Cursor) :
  matches_any rules c m =
  existsb (is_pair c m) exact_pairs ||
  existsb (is_class c) nonconst_reference_classes ||
  name_independent c m || bitfield_member c m ||
  static_interpolate c m || iterator_member c m.
Proof.
  unfold rules, rules_after_using.
  rewrite matches_any_app.
  change (using_declaration_rule :: ?l) with ([using_declaration_rule] ++ l)%list.
  rewrite !matches_any_app, single_pair_rules.
  unfold matches_any, rules_before_using.
  cbn [existsb matches pair_rule silent_rule using_declaration_rule].
  unfold nonconst_reference, name_independent, exact_pairs.
  rewrite !existsb_app, ?orb_false_r.
  apply eq_true_iff_eq. rewrite !orb_true_iff. tauto.
Qed.

Lemma is_pair_iff (c m : Cursor) (ps : list (string * string)) :
  existsb (is_pair c m) ps = true <-> In (spelling c, spelling m) ps.
Proof.
  split; [|apply is_pair_In].
  intros H. apply existsb_exists in H. destruct H as [[cl mem] [Hin Hp]].
  unfold is_pair in Hp. cbn [fst snd] in Hp.
  apply andb_true_iff in Hp. destruct Hp as [Hc Hm].
  apply String.eqb_eq in Hc, Hm. now subst.
Qed.

Lemma is_class_iff (c : Cursor) (l : list string) :
  existsb (is_class c) l = true <-> In (spelling c) l.
Proof. exact (str_in_In (spelling c) l). Qed.

Lemma prefix_app (p s : string) :
  String.prefix p s = true <-> exists rest, s = p ++ rest.
Proof.
  revert s. induction p as [ | a p IH ]; intros s.
  - split; [intros _; now exists s | intros _; now destruct s].
  - destruct s as [ | b s ]; cbn [String.prefix].
    + split; [discriminate | intros [rest H]; discriminate H].
    + destruct (Ascii.ascii_dec a b) as [Hab | Hab].
      * subst b. rewrite IH. split; intros [rest H]; exists rest.
        -- cbn. now rewrite H.
        -- cbn in H. now injection H.
      * split; [discriminate|]. intros [rest H]. cbn in H.
        injection H as Hb _. congruence.
Qed.

Lemma contains_app (sub s : string) :
  Py.contains sub s = true <-> exists pre post, s = pre ++ sub ++ post.
Proof.
  induction s as [ | a s IH ]; cbn [Py.contains].
  - destruct (String.prefix sub "") eqn:Hp.
    + split; [|reflexivity]. intros _.
      apply prefix_app in Hp. destruct Hp as [rest Hr].
      exists "", rest. exact Hr.
    + split; [discriminate|]. intros [pre [post H]].
      destruct pre; [|discriminate H]. cbn in H.
      assert (Hq : String.prefix sub "" = true)
        by (apply prefix_app; now exists post).
      congruence.
  - destruct (String.prefix sub (String a s)) eqn:Hp.
    + split; [|reflexivity]. intros _.
      apply prefix_app in Hp. destruct Hp as [rest Hr].
      exists "", rest. exact Hr.
    + rewrite IH. split.
      * intros [pre [post H]]. exists (String a pre), post.
        cbn. now rewrite H.
      * intros [pre [post H]]. destruct pre as [ | b pre ].
        -- cbn in H.
           assert (Hq : String.prefix sub (String a s) = true)
             by (apply prefix_app; now exists post).
           congruence.
        -- cbn in H. injection H as _ Hs. now exists pre, post.
Qed.

Lemma stream_type_iff (c m : Cursor) :
  stream_type c m = true <->
  (exists rest, type_spelling (result_type m) = "Standard_OStream" ++ rest) \/
  type_spelling (type m) = "std::ifstream".
Proof.
  unfold stream_type, Py.startswith.
  now rewrite orb_true_iff, prefix_app, String.eqb_eq.
Qed.

Lemma name_independent_iff (c m : Cursor) :
  name_independent c m = true <->
  type_spelling (type c) = "MeshVS_TwoColors" \/
  (access_specifier m = PUBLIC /\ kind m = USING_DECLARATION) \/
  (exists rest, type_spelling (result_type m) = "Standard_OStream" ++ rest) \/
  type_spelling (type m) = "std::ifstream".
Proof.
  unfold name_independent.
  rewrite !orb_true_iff, stream_type_iff, public_using_declaration_true.
  unfold bitfield_class. rewrite String.eqb_eq. tauto.
Qed.

(** X1. The list of exclusions is complete: the call returns [False]
    exactly when the two names are one of the literal pairs, or the class is
    one of the two wholly excluded classes, or the class type is
    MeshVS_TwoColors, or the member is one of the eight bit-field names of
    Graphic3d_CStructure, a public using-declaration, a member with a stream
    type, the static NCollection_Lerp::Interpolate, or a member of one of
    the two container classes with "::Iterator" somewhere in its display
    name.  Nothing else is ever excluded. *)
Theorem excluded_iff_listed (c m : Cursor) (out : stdout) :
  fst (filterMethodOrProperty c m out) = false <->
  In (spelling c, spelling m) exact_pairs \/
  In (spelling c) nonconst_reference_classes \/
  type_spelling (type c) = "MeshVS_TwoColors" \/
  (spelling c = "Graphic3d_CStructure" /\
   In (spelling m) bitfield_members) \/
  (access_specifier m = PUBLIC /\ kind m = USING_DECLARATION) \/
  (exists rest,
      type_spelling (result_type m) = "Standard_OStream" ++ rest) \/
  type_spelling (type m) = "std::ifstream" \/
  (spelling c = "NCollection_Lerp" /\ spelling m = "Interpolate" /\
   is_static_method m = true) \/
  (In (spelling c) iterator_classes /\
   exists pre post, displayname m = pre ++ "::Iterator" ++ post).
Proof.
  rewrite filter_decision, negb_false_iff, rules_expanded.
  rewrite !orb_true_iff, is_pair_iff, is_class_iff, name_independent_iff.
  unfold bitfield_member, static_interpolate, iterator_member.
  rewrite !andb_true_iff, !String.eqb_eq, !str_in_In, contains_app.
  tauto.
Qed.

(** ** Whole classes, members excluded everywhere, unknown classes *)

Lemma member_not_listed (c m : Cursor) (ps : list (string * string)) :
  existsb (fun p => spelling m =? snd p) ps = false ->
  existsb (is_pair c m) ps = false.
Proof.
  induction ps as [ | p ps IH ]; cbn [existsb]; intros H.
  - reflexivity.
  - apply orb_false_iff in H. destruct H as [Hp Hps].
    unfold is_pair at 1. rewrite Hp, andb_false_r. now apply IH.
Qed.

Lemma class_listed_iff (c : Cursor) (ps : list (string * string)) :
  class_listed c ps = true <-> In (spelling c) (map fst ps).
Proof.
  unfold class_listed. rewrite existsb_exists, in_map_iff. split.
  - intros [p [Hin Hp]]. apply String.eqb_eq in Hp. now exists p.
  - intros [p [Hp Hin]]. exists p. split; [exact Hin|].
    rewrite Hp. apply String.eqb_refl.
Qed.

Lemma not_named_class (c : Cursor) :
  ~ In (spelling c) named_classes ->
  class_listed c exact_pairs = false /\
  existsb (is_class c) nonconst_reference_classes = false /\
  (spelling c =? "Graphic3d_CStructure") = false /\
  (spelling c =? "NCollection_Lerp") = false /\
  Py.str_in (spelling c) iterator_classes = false.
Proof.
  unfold named_classes. intros H.
  repeat split; apply not_true_is_false; intros Ht; apply H.
  - apply in_or_app. left. now apply class_listed_iff.
  - apply in_or_app. right. apply in_or_app. left. now apply is_class_iff.
  - apply String.eqb_eq in Ht. rewrite Ht.
    apply in_or_app. right. apply in_or_app. right. now left.
  - apply String.eqb_eq in Ht. rewrite Ht.
    apply in_or_app. right. apply in_or_app. right. right. now left.
  - apply str_in_In in Ht.
    apply in_or_app. right. apply in_or_app. right. right. now right.
Qed.

Lemma member_listed_iff (m : Cursor) (ps : list (string * string)) :
  existsb (fun p => spelling m =? snd p) ps = true <->
  In (spelling m) (map snd ps).
Proof.
  rewrite existsb_exists, in_map_iff. split.
  - intros [p [Hin Hp]]. apply String.eqb_eq in Hp. now exists p.
  - intros [p [Hp Hin]]. exists p. split; [exact Hin|].
    rewrite Hp. apply String.eqb_refl.
Qed.

Lemma unnamed_member_admitted (c m : Cursor) (out : stdout) :
  ~ In (spelling c) nonconst_reference_classes ->
  type_spelling (type c) <> "MeshVS_TwoColors" ->
  ~ In (spelling m) named_members ->
  Py.contains "::Iterator" (displayname m) = false ->
  ~ (access_specifier m = PUBLIC /\ kind m = USING_DECLARATION) ->
  Py.startswith (type_spelling (result_type m)) "Standard_OStream" = false ->
  type_spelling (type m) <> "std::ifstream" ->
  filterMethodOrProperty c m out = (true, out).
Proof.
  unfold named_members. intros Hc Ht Hm Hi Hu Hs Hf.
  assert (Hpairs : existsb (fun p => spelling m =? snd p) exact_pairs = false).
  { apply not_true_is_false. intros H. apply Hm.
    apply in_or_app. left. now apply member_listed_iff. }
  assert (Hbit : Py.str_in (spelling m) bitfield_members = false).
  { apply not_true_is_false. intros H. apply Hm. apply str_in_In in H.
    apply in_or_app. right. apply in_or_app. now left. }
  assert (Hlerp : (spelling m =? "Interpolate") = false).
  { apply not_true_is_false. intros H. apply Hm. apply String.eqb_eq in H.
    rewrite H. apply in_or_app. right. apply in_or_app. right. now left. }
  assert (Hnone : matches_any rules c m = false).
  { rewrite rules_expanded.
    rewrite (member_not_listed c m exact_pairs Hpairs).
    unfold name_independent, bitfield_class, bitfield_member,
      static_interpolate, iterator_member, stream_type, Py.startswith.
    unfold Py.startswith in Hs. rewrite Hbit, Hlerp, Hi, Hs.
    rewrite <- is_class_iff in Hc. apply not_true_is_false in Hc.
    rewrite <- String.eqb_eq in Ht, Hf. apply not_true_is_false in Ht, Hf.
    rewrite <- public_using_declaration_true in Hu.
    apply not_true_is_false in Hu.
    rewrite Hc, Ht, Hf, (Hu : public_using_declaration c m = false).
    now rewrite !andb_false_r. }
  rewrite filter_is_rules. now apply run_rules_no_match.
Qed.

(** X2. The classes that lose every member: the call returns [False] for
    all members of a class exactly when the class is named Resource_Unicode
    or XSControl_Vars or its type is MeshVS_TwoColors.  A class that is none
    of these keeps every member whose name occurs in no statement of the
    chain, which has no "::Iterator" in its display name, is not a public
    using-declaration and has no stream type: for such a member the call
    returns [True] and prints nothing. *)
Theorem class_wholly_excluded_iff (c : Cursor) :
  ((forall (m : Cursor) (out : stdout),
       fst (filterMethodOrProperty c m out) = false) <->
   In (spelling c) nonconst_reference_classes \/
   type_spelling (type c) = "MeshVS_TwoColors") /\
  (~ In (spelling c) nonconst_reference_classes ->
   type_spelling (type c) <> "MeshVS_TwoColors" ->
   forall (m : Cursor) (out : stdout),
     ~ In (spelling m) named_members ->
     Py.contains "::Iterator" (displayname m) = false ->
     ~ (access_specifier m = PUBLIC /\ kind m = USING_DECLARATION) ->
     Py.startswith (type_spelling (result_type m)) "Standard_OStream"
       = false ->
     type_spelling (type m) <> "std::ifstream" ->
     filterMethodOrProperty c m out = (true, out)).
Proof.
  split; [split|].
  - intros H.
    specialize (H (Examples.method_cursor "Bar" "void") []).
    rewrite filter_decision, negb_false_iff, rules_expanded in H.
    rewrite member_not_listed in H by reflexivity.
    unfold name_independent, bitfield_member, static_interpolate,
      iterator_member in H.
    replace (public_using_declaration c (Examples.method_cursor "Bar" "void"))
      with false in H by reflexivity.
    replace (stream_type c (Examples.method_cursor "Bar" "void"))
      with false in H by reflexivity.
    cbn [spelling displayname is_static_method Examples.method_cursor] in H.
    replace (Py.str_in "Bar" bitfield_members) with false in H
      by reflexivity.
    replace ("Bar" =? "Interpolate") with false in H by reflexivity.
    replace (Py.contains "::Iterator" ("Bar" ++ "()")) with false in H
      by reflexivity.
    rewrite ?andb_false_r, ?orb_false_r in H. cbn [orb andb] in H.
    rewrite ?orb_false_r in H.
    apply orb_true_iff in H. rewrite is_class_iff in H.
    unfold bitfield_class in H. now rewrite String.eqb_eq in H.
  - intros H m out.
    rewrite filter_decision, negb_false_iff, rules_expanded, !orb_true_iff.
    destruct H as [H | H].
    + left. left. left. left. right. now apply is_class_iff.
    + left. left. left. right. apply name_independent_iff. now left.
  - intros Hc Ht m out. now apply unnamed_member_admitted.
Qed.

Lemma class_wholly_excluded_iff_witness :
  let c := Examples.class_cursor "Geom2dHatch_Hatcher" in
  let m := Examples.method_cursor "Confusion2d" "Standard_Real" in
  filterMethodOrProperty c m [] = (true, []).
Proof.
  intros c m.
  destruct (class_wholly_excluded_iff c) as [_ Hkeeps].
  apply Hkeeps.
  - cbn. intros [H | [H | []]]; discriminate H.
  - discriminate.
  - vm_compute. intros Hin.
    repeat (destruct Hin as [Hin | Hin]; [discriminate Hin|]).
    exact Hin.
  - reflexivity.
  - intros [_ H]. discriminate H.
  - reflexivity.
  - discriminate.
Defined.

(** X3. The members that are excluded in every class: the call returns
    [False] for a member whatever the class is exactly when the member is a
    public using-declaration, or its result type begins with
    "Standard_OStream", or its declared type is "std::ifstream".  No test of
    the chain rejects a member for its name alone. *)
Theorem member_excluded_everywhere_iff (m : Cursor) :
  (forall (c : Cursor) (out : stdout),
      fst (filterMethodOrProperty c m out) = false) <->
  (access_specifier m = PUBLIC /\ kind m = USING_DECLARATION) \/
  (exists rest,
      type_spelling (result_type m) = "Standard_OStream" ++ rest) \/
  type_spelling (type m) = "std::ifstream".
Proof.
  split.
  - intros H. specialize (H (Examples.class_cursor "Foo") []).
    rewrite filter_decision, negb_false_iff in H.
    rewrite unlisted_class_decision in H by reflexivity.
    replace (bitfield_member (Examples.class_cursor "Foo") m) with false in H
      by reflexivity.
    replace (static_interpolate (Examples.class_cursor "Foo") m) with false
      in H by reflexivity.
    replace (iterator_member (Examples.class_cursor "Foo") m) with false in H
      by reflexivity.
    rewrite !orb_false_r in H. apply name_independent_iff in H.
    destruct H as [H | H]; [discriminate H | exact H].
  - intros H c out.
    rewrite filter_decision, negb_false_iff, rules_expanded, !orb_true_iff.
    left. left. left. right. apply name_independent_iff. tauto.
Qed.

(** X4. A class the chain does not name (it occurs in no pair and in no
    class test, and its type is not MeshVS_TwoColors): its member is
    excluded exactly when it is a public using-declaration or has a stream
    type, whatever the names, the display name and the static flag are. *)
Theorem unnamed_class_members (c m : Cursor) (out : stdout) :
  ~ In (spelling c) named_classes ->
  type_spelling (type c) <> "MeshVS_TwoColors" ->
  (fst (filterMethodOrProperty c m out) = false <->
   (access_specifier m = PUBLIC /\ kind m = USING_DECLARATION) \/
   (exists rest,
       type_spelling (result_type m) = "Standard_OStream" ++ rest) \/
   type_spelling (type m) = "std::ifstream").
Proof.
  intros Hc Ht.
  destruct (not_named_class c Hc) as [Hp [Hw [Hg [Hl Hi]]]].
  rewrite filter_decision, negb_false_iff.
  rewrite unlisted_class_decision by assumption.
  unfold bitfield_member, static_interpolate, iterator_member.
  rewrite Hg, Hl, Hi. cbn [andb]. rewrite !orb_false_r.
  rewrite name_independent_iff. tauto.
Qed.

Lemma unnamed_class_members_witness :
  fst (filterMethodOrProperty (Examples.class_cursor "gp_Pnt")
         (Examples.method_cursor "GetGeom" "Standard_Boolean") []) = true.
Proof.
  apply not_false_iff_true. intros H.
  apply (unnamed_class_members (Examples.class_cursor "gp_Pnt")
           (Examples.method_cursor "GetGeom" "Standard_Boolean") []) in H.
  - destruct H as [[_ H] | [[rest H] | H]]; discriminate H.
  - vm_compute. intros Hin.
    repeat (destruct Hin as [Hin | Hin]; [discriminate Hin|]).
    exact Hin.
  - discriminate.
Defined.

(** X5. The static flag decides for NCollection_Lerp: a member of that
    class is excluded exactly when it is the static method Interpolate, or
    one of the tests that ignore the names matches.  A member Interpolate
    that is not static is admitted. *)
Theorem lerp_members (c m : Cursor) (out : stdout) :
  spelling c = "NCollection_Lerp" ->
  (fst (filterMethodOrProperty c m out) = false <->
   (spelling m = "Interpolate" /\ is_static_method m = true) \/
   name_independent c m = true).
Proof.
  intros Hc. rewrite filter_decision, negb_false_iff.
  rewrite unlisted_class_decision
    by (unfold class_listed, is_class; rewrite Hc; reflexivity).
  unfold bitfield_member, static_interpolate, iterator_member.
  rewrite Hc.
  replace ("NCollection_Lerp" =? "Graphic3d_CStructure") with false
    by reflexivity.
  replace (Py.str_in "NCollection_Lerp" iterator_classes) with false
    by reflexivity.
  rewrite String.eqb_refl. cbn [andb]. rewrite !orb_false_r.
  rewrite orb_true_iff, andb_true_iff, String.eqb_eq. tauto.
Qed.

Lemma lerp_members_witness :
  let c := Examples.class_cursor "NCollection_Lerp" in
  let m := Examples.method_cursor "Interpolate" "void" in
  fst (filterMethodOrProperty c m []) = true.
Proof.
  intros c m. apply not_false_iff_true. intros H.
  apply (lerp_members c m [] eq_refl) in H.
  destruct H as [[_ H] | H]; discriminate H.
Defined.

(** X6. The marker of the container statement may stand anywhere in the
    display name.  For a member of NCollection_Sequence or NCollection_List
    that none of the tests ignoring the names matches, the call returns
    [False] exactly when the display name is some text, then "::Iterator",
    then some text. *)
Theorem iterator_marker_anywhere (c m : Cursor) (out : stdout) :
  In (spelling c) iterator_classes ->
  name_independent c m = false ->
  (fst (filterMethodOrProperty c m out) = false <->
   exists pre post, displayname m = pre ++ "::Iterator" ++ post).
Proof.
  intros Hc Hn.
  assert (Hc' : spelling c = "NCollection_Sequence" \/
                spelling c = "NCollection_List").
  { cbn in Hc. destruct Hc as [Hc | [Hc | []]]; auto. }
  rewrite filter_decision, negb_false_iff.
  rewrite (container_class_decision c m Hc'), Hn. cbn [orb].
  apply contains_app.
Qed.

Lemma iterator_marker_anywhere_witness :
  let c := Examples.class_cursor "NCollection_List" in
  let m :=
    {| spelling := "InsertBefore";
       displayname := "InsertBefore(const int &, NCollection_List::Iterator &)";
       type := {| type_spelling := "int &(const int &, NCollection_List::Iterator &)" |};
       result_type := {| type_spelling := "int &" |};
       access_specifier := PUBLIC;
       kind := CXX_METHOD;
       is_static_method := false |} in
  fst (filterMethodOrProperty c m []) = false.
Proof.
  intros c m.
  apply (iterator_marker_anywhere c m []).
  - right. left. reflexivity.
  - reflexivity.
  - exists "InsertBefore(const int &, NCollection_List", " &)".
    reflexivity.
Defined.

(** ** Every statement of the chain is reached *)

Lemma run_rules_first (rs1 rs2 : list Rule) (r : Rule) (c m : Cursor)
    (out : stdout) :
  matches_any rs1 c m = false -> matches r c m = true ->
  run_rules (rs1 ++ r :: rs2) c m out = reject r c m out.
Proof.
  intros H1 Hr. rewrite run_rules_skip by exact H1.
  cbn [run_rules]. now rewrite Hr.
Qed.

Lemma deciding_examples_checked :
  forallb
    (fun i =>
       match nth_error rules i, nth_error deciding_examples i with
       | Some r, Some cm =>
           negb (matches_any (firstn i rules) (fst cm) (snd cm)) &&
           matches r (fst cm) (snd cm)
       | _, _ => false
       end)
    (seq 0 (length rules)) = true.
Proof. vm_compute. reflexivity. Qed.

(** X7. No statement of the chain is dead: for each of its statements there
    are a class and a member for which all the statements before it fail,
    its own test holds, and the call does what that statement does. *)
Theorem no_dead_statement (i : nat) (r : Rule) :
  nth_error rules i = Some r ->
  exists c m : Cursor,
    matches_any (firstn i rules) c m = false /\
    matches r c m = true /\
    filterMethodOrProperty c m [] = reject r c m [].
Proof.
  intros Hi.
  assert (Hlt : i < length rules)
    by (apply nth_error_Some; congruence).
  pose proof deciding_examples_checked as Hall.
  rewrite forallb_forall in Hall.
  specialize (Hall i). rewrite Hi in Hall.
  assert (Hin : In i (seq 0 (length rules)))
    by (apply in_seq; split; [apply Nat.le_0_l | exact Hlt]).
  specialize (Hall Hin).
  destruct (nth_error deciding_examples i) as [[c m] | ]; [|discriminate].
  cbn [fst snd] in Hall. apply andb_true_iff in Hall.
  destruct Hall as [Hbefore Hr]. apply negb_true_iff in Hbefore.
  exists c, m. split; [exact Hbefore|]. split; [exact Hr|].
  rewrite filter_is_rules.
  destruct (nth_error_split rules i Hi) as [l1 [l2 [Hsplit Hlen]]].
  assert (Hfirst : firstn i rules = l1).
  { rewrite Hsplit, <- Hlen, firstn_app, firstn_all, Nat.sub_diag.
    cbn [firstn]. apply app_nil_r. }
  rewrite Hfirst in Hbefore. rewrite Hsplit.
  now apply run_rules_first.
Qed.

Lemma no_dead_statement_witness :
  exists c m : Cursor,
    matches_any (firstn 6 rules) c m = false /\
    matches using_declaration_rule c m = true /\
    filterMethodOrProperty c m [] = reject using_declaration_rule c m [].
Proof.
  apply (no_dead_statement 6 using_declaration_rule). reflexivity.
Defined.

(** ** The rules on names do not overlap *)

Lemma fits_clash (c m : Cursor) (p q : pattern) :
  fits c m p = true -> fits c m q = true -> clash p q = true.
Proof.
  unfold fits, clash. destruct p as [pc pm], q as [qc qm]. cbn [fst snd].
  rewrite !andb_true_iff. intros [Hpc Hpm] [Hqc Hqm].
  apply String.eqb_eq in Hpc, Hqc. split.
  - apply String.eqb_eq. congruence.
  - destruct pm as [a | ], qm as [b | ]; try reflexivity.
    apply String.eqb_eq in Hpm, Hqm. apply String.eqb_eq. congruence.
Qed.

Lemma pair_patterns_cover (c m : Cursor) (ps : list (string * string)) :
  existsb (is_pair c m) ps = true ->
  existsb (fits c m) (pair_patterns ps) = true.
Proof.
  unfold pair_patterns.
  induction ps as [ | p ps IH ]; cbn [existsb map]; [discriminate|].
  rewrite !orb_true_iff. intros [H | H]; [left; exact H | right; auto].
Qed.

Lemma class_patterns_cover (c m : Cursor) (cs : list string) :
  existsb (is_class c) cs = true ->
  existsb (fits c m) (class_patterns cs) = true.
Proof.
  unfold class_patterns.
  induction cs as [ | cl cs IH ]; cbn [existsb map]; [discriminate|].
  rewrite !orb_true_iff. intros [H | H]; [left | right; auto].
  unfold fits. cbn [fst snd]. now rewrite andb_true_r.
Qed.

Lemma member_patterns_cover (c m : Cursor) (cl : string)
    (mems : list string) :
  (spelling c =? cl) && Py.str_in (spelling m) mems = true ->
  existsb (fits c m) (member_patterns cl mems) = true.
Proof.
  unfold member_patterns, Py.str_in. rewrite andb_true_iff.
  intros [Hc Hm].
  induction mems as [ | mem mems IH ]; cbn [existsb map] in *;
    [discriminate|].
  apply orb_true_iff in Hm. apply orb_true_iff.
  destruct Hm as [Hm | Hm]; [left | right; auto].
  unfold fits. cbn [fst snd]. now rewrite Hc, Hm.
Qed.

Lemma name_rules_covered : Forall2 covered name_rules name_patterns.
Proof.
  unfold name_rules, name_patterns, undefined_symbol_pairs.
  cbn [app map].
  repeat (apply Forall2_cons;
          [ try (intros c m; cbn [matches pair_rule];
                 apply pair_patterns_cover) | ]);
    try apply Forall2_nil.
  - intros c m. cbn [matches silent_rule]. unfold nonconst_reference.
    rewrite existsb_app, !orb_true_iff. intros [H | H].
    + left. now apply class_patterns_cover.
    + right. now apply pair_patterns_cover.
  - intros c m. cbn [matches silent_rule]. unfold bitfield_member.
    apply member_patterns_cover.
  - intros c m. cbn [matches silent_rule]. unfold static_interpolate.
    rewrite !andb_true_iff. intros [[Hc Hm] _].
    cbn [existsb]. unfold fits. cbn [fst snd]. now rewrite Hc, Hm.
  - intros c m. cbn [matches silent_rule]. unfold iterator_member.
    rewrite andb_true_iff. intros [Hc _].
    now apply class_patterns_cover.
Qed.

Lemma name_patterns_apart : pairwise_apart name_patterns = true.
Proof. vm_compute. reflexivity. Qed.

Lemma pairwise_apart_nth (l : list (list pattern)) (i j : nat)
    (ps qs : list pattern) :
  pairwise_apart l = true -> i < j ->
  nth_error l i = Some ps -> nth_error l j = Some qs ->
  apart ps qs = true.
Proof.
  revert i j. induction l as [ | x l IH ]; intros i j Hl Hij Hi Hj.
  - destruct i; discriminate Hi.
  - cbn [pairwise_apart] in Hl. apply andb_true_iff in Hl.
    destruct Hl as [Hx Hrest].
    destruct j as [ | j ]; [inversion Hij|].
    destruct i as [ | i ]; cbn [nth_error] in Hi, Hj.
    + injection Hi as <-. rewrite forallb_forall in Hx.
      apply Hx. eapply nth_error_In. exact Hj.
    + apply (IH i j Hrest); [now apply Nat.succ_lt_mono | exact Hi | exact Hj].
Qed.

Lemma apart_no_common_fit (c m : Cursor) (ps qs : list pattern) :
  apart ps qs = true ->
  existsb (fits c m) ps = true -> existsb (fits c m) qs = true -> False.
Proof.
  unfold apart. rewrite forallb_forall. intros Ha Hp Hq.
  apply existsb_exists in Hp. destruct Hp as [p [Hpin Hp]].
  apply existsb_exists in Hq. destruct Hq as [q [Hqin Hq]].
  specialize (Ha p Hpin). rewrite forallb_forall in Ha.
  specialize (Ha q Hqin).
  rewrite (fits_clash c m p q Hp Hq) in Ha. discriminate Ha.
Qed.

Lemma Forall2_nth_error {A B : Type} (R : A -> B -> Prop)
    (l : list A) (l' : list B) (i : nat) (a : A) :
  Forall2 R l l' -> nth_error l i = Some a ->
  exists b, nth_error l' i = Some b /\ R a b.
Proof.
  intros H. revert i. induction H as [ | x y l l' Hxy _ IH ]; intros i Hi.
  - destruct i; discriminate Hi.
  - destruct i as [ | i ]; cbn [nth_error] in *.
    + injection Hi as <-. now exists y.
    + now apply IH.
Qed.

(** X8. The rules that test names are mutually exclusive: no class and
    member are matched by two different statements among the pair
    statements, the whole-class tests, the bit-field member list, the static
    Interpolate test and the container test.  Every statement of the chain
    is one of these or one of the three that ignore the names (bit-field
    class type, public using-declaration, stream type), so overlap between
    statements always involves one of those three. *)
Theorem name_rules_exclusive :
  mutually_exclusive name_rules /\
  (forall r : Rule,
      In r rules <-> In r name_rules \/ In r name_independent_rules).
Proof.
  split.
  - intros c m i j ri rj Hi Hj Hri Hrj.
    destruct (Forall2_nth_error covered _ _ i ri name_rules_covered Hi)
      as [ps [Hps Hcp]].
    destruct (Forall2_nth_error covered _ _ j rj name_rules_covered Hj)
      as [qs [Hqs Hcq]].
    specialize (Hcp c m Hri). specialize (Hcq c m Hrj).
    destruct (Nat.lt_trichotomy i j) as [Hlt | [Heq | Hgt]].
    + exfalso. apply (apart_no_common_fit c m ps qs); try assumption.
      exact (pairwise_apart_nth _ i j ps qs name_patterns_apart Hlt Hps Hqs).
    + exact Heq.
    + exfalso. apply (apart_no_common_fit c m qs ps); try assumption.
      exact (pairwise_apart_nth _ j i qs ps name_patterns_apart Hgt Hqs Hps).
  - intros r.
    unfold rules, rules_before_using, rules_after_using, name_rules,
      name_independent_rules, undefined_symbol_pairs.
    cbn [app map In]. tauto.
Qed.

(** ** What the call does not read *)

(** X9. Of the class cursor the call reads the name and the type name only;
    of the member cursor it reads the display name only when the class is
    one of the two container classes, and the static flag only for
    NCollection_Lerp::Interpolate.  Cursors that agree on what is read get
    the same answer and the same output. *)
Theorem unread_attributes (c c' m m' : Cursor) (out : stdout) :
  spelling c' = spelling c -> type c' = type c ->
  spelling m' = spelling m -> type m' = type m ->
  result_type m' = result_type m ->
  access_specifier m' = access_specifier m -> kind m' = kind m ->
  (In (spelling c) iterator_classes -> displayname m' = displayname m) ->
  (spelling c = "NCollection_Lerp" -> spelling m = "Interpolate" ->
   is_static_method m' = is_static_method m) ->
  filterMethodOrProperty c' m' out = filterMethodOrProperty c m out.
Proof.
  intros Hcs Hct Hms Hmt Hmr Hma Hmk Hd Hst.
  rewrite !filter_appends.
  assert (Hbefore : matches_any rules_before_using c' m' =
                    matches_any rules_before_using c m).
  { unfold matches_any, rules_before_using.
    cbn [existsb matches pair_rule silent_rule].
    unfold nonconst_reference, bitfield_class, bitfield_member, is_pair,
      is_class.
    now rewrite Hcs, Hct, Hms. }
  assert (Husing : public_using_declaration c' m' =
                   public_using_declaration c m).
  { unfold public_using_declaration. now rewrite Hma, Hmk. }
  assert (Hiter : iterator_member c' m' = iterator_member c m).
  { unfold iterator_member. rewrite Hcs.
    destruct (Py.str_in (spelling c) iterator_classes) eqn:Hin;
      [|reflexivity].
    apply str_in_In in Hin. now rewrite (Hd Hin). }
  assert (Hlerp : static_interpolate c' m' = static_interpolate c m).
  { unfold static_interpolate. rewrite Hcs, Hms.
    destruct (spelling c =? "NCollection_Lerp") eqn:Hc; [|reflexivity].
    destruct (spelling m =? "Interpolate") eqn:Hm; [|reflexivity].
    apply String.eqb_eq in Hc, Hm. now rewrite (Hst Hc Hm). }
  f_equal.
  - f_equal. rewrite !rules_expanded, Hiter, Hlerp.
    unfold name_independent. rewrite Husing.
    unfold bitfield_class, bitfield_member, stream_type, is_pair, is_class.
    now rewrite Hcs, Hct, Hms, Hmt, Hmr.
  - unfold printed, using_declaration_message.
    now rewrite Hbefore, Husing, Hcs, Hms.
Qed.

Lemma unread_attributes_witness :
  let c := Examples.class_cursor "gp_Pnt" in
  let m := Examples.method_cursor "Distance" "Standard_Real" in
  let m' :=
    {| spelling := "Distance";
       displayname := "Distance(gp_Pnt::Iterator)";
       type := {| type_spelling := "Standard_Real ()" |};
       result_type := {| type_spelling := "Standard_Real" |};
       access_specifier := PUBLIC;
       kind := CXX_METHOD;
       is_static_method := true |} in
  filterMethodOrProperty c m' [] = filterMethodOrProperty c m [].
Proof.
  intros c m m'.
  apply (unread_attributes c c m m' []); try reflexivity.
  - cbn. intros [H | [H | []]]; discriminate H.
  - intros H. discriminate H.
Defined.
